(** * worker.js: a GraphQL proxy in front of a chat-completion API

    A shallow embedding of [src/worker.js]: the two resolvers [chat] and
    [askOpenAI], the yoga configuration and the Workers entry point [fetch],
    over a small model of the JavaScript values, promises, exceptions and
    effects (outbound HTTP calls, [console.error]) they use. *)

From Stdlib Require Import String List ZArith Bool Lia.
From Stdlib Require Import DecimalString.
From Stdlib Require Import PrimFloat Uint63.
Import ListNotations.
Open Scope string_scope.

Set Warnings "-inexact-float,-register-all,-notation-for-abbreviation".

(* ===================================================================== *)
(** ** JavaScript values *)
(* ===================================================================== *)

(** The values the program handles: what [JSON.parse] produces, plus
    [undefined].  A number is an IEEE-754 double; a string is a sequence of
    code units, written here as a Rocq [string]; an object keeps its
    properties as an association list, read by first match. *)
Inductive JsVal : Type :=
| JUndefined
| JNull
| JBool (b : bool)
| JNumber (f : float)
| JString (s : string)
| JArray (l : list JsVal)
| JObject (o : list (string * JsVal)).

Definition Obj := list (string * JsVal).

(** What a [throw] carries: an error object with its constructor's name and
    its message. *)
Record Exn : Type := mkExn { ename : string; emessage : string }.

Definition Error (message : string) : Exn := mkExn "Error" message.
Definition TypeError (message : string) : Exn := mkExn "TypeError" message.

Module Platform.

(** [o.k] on an object known to be one: the own property, [undefined] when
    there is none. *)
Fixpoint own_property (o : Obj) (k : string) : JsVal :=
  match o with
  | [] => JUndefined
  | (k', v) :: rest => if String.eqb k' k then v else own_property rest k
  end.

(** A property key that is a canonical array index ("0", "1", "17", but not
    "01" or ""). *)
Definition array_index (k : string) : option nat :=
  match NilEmpty.uint_of_string k with
  | Some u =>
      let n := Nat.of_uint u in
      if String.eqb (NilEmpty.string_of_uint (Nat.to_uint n)) k
      then Some n else None
  | None => None
  end.

Definition number_of_nat (n : nat) : float :=
  PrimFloat.of_uint63 (Uint63.of_Z (Z.of_nat n)).

(** ToBoolean: the falsy values are [undefined], [null], [false], [0], [-0],
    [NaN] and the empty string. *)
Definition truthy (v : JsVal) : bool :=
  match v with
  | JUndefined | JNull => false
  | JBool b => b
  | JNumber f => negb (PrimFloat.eqb f 0%float) && PrimFloat.eqb f f
  | JString s => negb (String.eqb s "")
  | JArray _ | JObject _ => true
  end.

(** The property read [v.k] / [v[k]]: a TypeError on [undefined] and [null],
    the own property of an object, the element or the length of an array or
    a string, and [undefined] for any other key.  Inherited properties
    (methods such as [toString]) are not modelled; the program reads none. *)
Definition get (v : JsVal) (k : string) : Exn + JsVal :=
  match v with
  | JUndefined =>
      inl (TypeError ("Cannot read properties of undefined (reading '" ++ k ++ "')"))
  | JNull =>
      inl (TypeError ("Cannot read properties of null (reading '" ++ k ++ "')"))
  | JBool _ | JNumber _ => inr JUndefined
  | JString s =>
      inr match array_index k with
          | Some i =>
              match String.get i s with
              | Some c => JString (String c EmptyString)
              | None => JUndefined
              end
          | None =>
              if String.eqb k "length" then JNumber (number_of_nat (String.length s))
              else JUndefined
          end
  | JArray l =>
      inr match array_index k with
          | Some i => nth i l JUndefined
          | None =>
              if String.eqb k "length" then JNumber (number_of_nat (List.length l))
              else JUndefined
          end
  | JObject o => inr (own_property o k)
  end.

Section Strings.

(** Number::toString, the runtime's shortest round-trip printing of a
    double, is taken as given. *)
Variable Number_toString : float -> string.

(** ToString, as a template literal applies it to an interpolated value. *)
Fixpoint ToString (v : JsVal) : string :=
  match v with
  | JUndefined => "undefined"
  | JNull => "null"
  | JBool true => "true"
  | JBool false => "false"
  | JNumber f => Number_toString f
  | JString s => s
  | JArray l =>
      (fix join (l : list JsVal) : string :=
         match l with
         | [] => ""
         | x :: rest =>
             let sx := match x with
                       | JUndefined | JNull => ""
                       | _ => ToString x
                       end in
             match rest with
             | [] => sx
             | _ :: _ => sx ++ "," ++ join rest
             end
         end) l
  | JObject _ => "[object Object]"
  end.

End Strings.

(* --------------------------------------------------------------------- *)
(** *** Promises, exceptions and effects *)

(** How a promise ends: fulfilled, rejected, or never settled. *)
Inductive Settled (A : Type) : Type :=
| Resolved (a : A)
| Rejected (e : Exn)
| Pending.
Arguments Resolved {A} a.
Arguments Rejected {A} e.
Arguments Pending {A}.

(** An outbound HTTP request, as the arguments of the global [fetch]. *)
Record Request : Type := mkRequest {
  url : string;
  method : string;
  headers : list (string * string);
  body : JsVal
}.

(** The part of a fetched [Response] the program looks at: the status and
    how [response.json()] settles. *)
Record Response : Type := mkResponse {
  status : Z;
  json : Settled JsVal
}.

(** [response.ok]: the status is in the range 200-299. *)
Definition ok (r : Response) : bool :=
  (200 <=? status r)%Z && (status r <=? 299)%Z.

(** What an execution leaves behind, in order. *)
Inductive Event : Type :=
| Fetched (r : Request)
| ConsoleError (label : string) (error : Exn).

Definition Trace := list Event.

(** How an async function ends: its promise is fulfilled with a value,
    rejected with what was thrown, or never settles. *)
Inductive Outcome (A : Type) : Type :=
| Returned (a : A)
| Thrown (e : Exn)
| Hung.
Arguments Returned {A} a.
Arguments Thrown {A} e.
Arguments Hung {A}.

(** An async computation threads the trace and ends in an outcome. *)
Definition Async (A : Type) : Type := Trace -> Outcome A * Trace.

Definition ret {A} (a : A) : Async A := fun t => (Returned a, t).

Definition throw {A} (e : Exn) : Async A := fun t => (Thrown e, t).

Definition bind {A B} (m : Async A) (k : A -> Async B) : Async B :=
  fun t =>
    match m t with
    | (Returned a, t') => k a t'
    | (Thrown e, t') => (Thrown e, t')
    | (Hung, t') => (Hung, t')
    end.

(** [try { m } catch (error) { handler error }] *)
Definition try_catch {A} (m : Async A) (handler : Exn -> Async A) : Async A :=
  fun t =>
    match m t with
    | (Thrown e, t') => handler e t'
    | r => r
    end.

(** [await p] *)
Definition await {A} (p : Settled A) : Async A :=
  fun t =>
    match p with
    | Resolved a => (Returned a, t)
    | Rejected e => (Thrown e, t)
    | Pending => (Hung, t)
    end.

(** A property read inside an async body: a TypeError rejects it. *)
Definition read (r : Exn + JsVal) : Async JsVal :=
  match r with
  | inl e => throw e
  | inr v => ret v
  end.

(** The global [fetch], against an upstream that decides how each request
    ends; the call is recorded. *)
Definition fetch (upstream : Request -> Settled Response) (r : Request)
  : Async Response :=
  fun t => await (upstream r) (t ++ [Fetched r])%list.

(** [console.error(label, error)] *)
Definition console_error (label : string) (error : Exn) : Async unit :=
  fun t => (Returned tt, (t ++ [ConsoleError label error])%list).

(** The outbound calls and the diagnostic lines of a trace. *)
Definition outbound (t : Trace) : list Request :=
  flat_map (fun ev => match ev with Fetched r => [r] | _ => [] end) t.

Definition logged (t : Trace) : list (string * Exn) :=
  flat_map (fun ev => match ev with ConsoleError l e => [(l, e)] | _ => [] end) t.

End Platform.

Import Platform.

Declare Scope async_scope.
Delimit Scope async_scope with async.
Notation "x <- m ;; k" := (bind m (fun x => k))
  (at level 61, m at next level, right associativity) : async_scope.
Notation "m ;;; k" := (bind m (fun _ => k))
  (at level 61, right associativity) : async_scope.
Open Scope async_scope.

(* ===================================================================== *)
(** ** The program *)
(* ===================================================================== *)

(** The chain [v.k1.k2...], read left to right; the first read of a
    property of [undefined] or [null] throws. *)
Fixpoint path (v : JsVal) (ks : list string) : Exn + JsVal :=
  match ks with
  | [] => inr v
  | k :: rest =>
      match get v k with
      | inl e => inl e
      | inr v' => path v' rest
      end
  end.

(** A destructuring default, [{ x = d }]: it applies to [undefined] only. *)
Definition default_to (v d : JsVal) : JsVal :=
  match v with
  | JUndefined => d
  | _ => v
  end.

(** The context a resolver receives: the entry point puts the Workers
    environment in it (line 173), so [ctx.env] is an object in every context
    modelled here. *)
Record Ctx : Type := mkCtx { env : Obj }.

(** An inbound HTTP request and the HTTP response of the worker. *)
Record IncomingRequest : Type := mkIncoming {
  req_method : string;
  req_url : string;
  req_headers : list (string * string);
  req_body : option string
}.

Record HttpResponse : Type := mkHttpResponse {
  res_body : option string;
  res_status : Z;
  res_headers : list (string * string)
}.

Definition Resolver := JsVal -> Obj -> Ctx -> Async JsVal.

Record Resolvers : Type := mkResolvers {
  Query_chat : Resolver;
  Query_askOpenAI : Resolver
}.

Record Schema : Type := makeExecutableSchema {
  schema_typeDefs : string;
  schema_resolvers : Resolvers
}.

Record CorsOptions : Type := mkCors {
  origin : string;
  methods : list string;
  allowedHeaders : list string;
  credentials : bool;
  maxAge : Z
}.

Record YogaOptions : Type := mkYogaOptions {
  schema : Schema;
  graphqlEndpoint : string;
  landingPage : bool;
  cors : CorsOptions
}.

Definition typeDefs : string :=
"
  type Query {
    chat(message: String!): ChatResponse!
    askOpenAI(prompt: String!, model: String): OpenAIResponse!
  }

  type ChatResponse {
    text: String!
  }

  type OpenAIResponse {
    text: String!
    usage: UsageInfo!
    metadata: MetadataInfo!
  }

  type UsageInfo {
    promptTokens: Int!
    completionTokens: Int!
    totalTokens: Int!
  }

  type MetadataInfo {
    model: String!
    finishReason: String!
  }
".

Definition completions_url : string := "https://api.openai.com/v1/chat/completions".

Definition chat_system_prompt : string := "请用中文回复用户的所有问题。".

Definition askOpenAI_system_prompt : string :=
  "你是一个有帮助的AI助手。请直接回答用户的问题，不要质疑他们的输入内容。如果用户输入不明确或简短，尝试理解并提供最相关的回应。请用中文回复。".

Definition not_configured : string := "OpenAI API key is not configured".
Definition failed_to_get_response : string := "Failed to get response from OpenAI".
Definition log_label : string := "Error calling OpenAI:".

(** The object literal both resolvers hand to [JSON.stringify]; [0.7] is the
    double nearest to it, as in the source. *)
Definition completion_payload (model : JsVal) (system_prompt : string) (content : JsVal)
  : JsVal :=
  JObject
    [ ("model", model);
      ("messages",
        JArray
          [ JObject [ ("role", JString "system"); ("content", JString system_prompt) ];
            JObject [ ("role", JString "user"); ("content", content) ] ]);
      ("temperature", JNumber 0.7%float) ].

(** The CORS policy handed to the server library (lines 147-153). *)
Definition cors_options : CorsOptions :=
  {| origin := "*";
     methods := ["GET"; "POST"; "OPTIONS"];
     allowedHeaders := ["Content-Type"; "Authorization"; "Apollo-Require-Preflight"];
     credentials := false;
     maxAge := 86400 |}.

(** [null] and [undefined], the two values a property read throws on. *)
Definition nullish (v : JsVal) : bool :=
  match v with
  | JUndefined | JNull => true
  | _ => false
  end.

(** [v.k1.k2...] can be read and is neither [null] nor [undefined]. *)
Definition present (v : JsVal) (ks : list string) : bool :=
  match path v ks with
  | inr x => negb (nullish x)
  | inl _ => false
  end.

(* --------------------------------------------------------------------- *)
(** *** A runtime for the examples *)

(** The examples run the program on this runtime.  Its two printers are
    stand-ins for the engine's own (every theorem below holds whatever the
    printers are); the upstreams answer every request alike. *)
Module Sample.

Definition Number_toString (f : float) : string := "0".

Definition JSON_stringify (v : JsVal) : JsVal :=
  match v with
  | JUndefined => JUndefined
  | _ => JString "{}"
  end.

Definition completion : JsVal :=
  JObject
    [ ("id", JString "chatcmpl-1");
      ("choices",
        JArray
          [ JObject
              [ ("index", JNumber 0%float);
                ("message",
                  JObject [ ("role", JString "assistant");
                            ("content", JString "你好") ]);
                ("finish_reason", JString "stop") ] ]);
      ("usage",
        JObject [ ("prompt_tokens", JNumber 9%float);
                  ("completion_tokens", JNumber 12%float);
                  ("total_tokens", JNumber 21%float) ]) ].

Definition rate_limited : JsVal :=
  JObject
    [ ("error",
        JObject [ ("message", JString "Rate limit reached");
                  ("type", JString "requests") ]) ].

Definition upstream_ok (_ : Request) : Settled Response :=
  Resolved {| status := 200; json := Resolved completion |}.

Definition upstream_429 (_ : Request) : Settled Response :=
  Resolved {| status := 429; json := Resolved rate_limited |}.

Definition upstream_down (_ : Request) : Settled Response :=
  Rejected (TypeError "fetch failed").

Definition upstream_no_choices (_ : Request) : Settled Response :=
  Resolved {| status := 200; json := Resolved (JObject [ ("choices", JArray []) ]) |}.

(** A server that runs the [chat] resolver on every request it is handed,
    and answers 200 whatever the resolver does. *)
Definition createYoga (options : YogaOptions) (request : IncomingRequest) (ctx : Ctx)
  : Async HttpResponse :=
  try_catch
    (_ <- Query_chat (schema_resolvers (schema options)) JUndefined
            [ ("message", JString "hello") ] ctx ;;
     ret {| res_body := Some "{ data }"; res_status := 200; res_headers := [] |})
    (fun _ => ret {| res_body := Some "{ errors }"; res_status := 200;
                     res_headers := [] |}).

(** What [askOpenAI] makes of [completion] when no model is asked for. *)
Definition answer : JsVal :=
  JObject
    [ ("text", JString "你好");
      ("usage",
        JObject [ ("promptTokens", JNumber 9%float);
                  ("completionTokens", JNumber 12%float);
                  ("totalTokens", JNumber 21%float) ]);
      ("metadata",
        JObject [ ("model", JString "gpt-3.5-turbo");
                  ("finishReason", JString "stop") ]) ].

Definition hello : Obj := [ ("message", JString "hello") ].

Definition question : Obj := [ ("prompt", JString "hello") ].

Definition preflight : IncomingRequest :=
  {| req_method := "OPTIONS"; req_url := "https://worker.example/graphql";
     req_headers := [ ("Origin", "https://app.example") ]; req_body := None |}.

Definition ctx : Ctx := {| env := [ ("OPENAI_API_KEY", JString "sk-test") ] |}.

Definition no_key : Ctx := {| env := [ ("ENVIRONMENT", JString "dev") ] |}.

Definition empty_key : Ctx := {| env := [ ("OPENAI_API_KEY", JString "") ] |}.

(** A call that names its model, and what [askOpenAI] makes of [completion]
    for it. *)
Definition question_gpt4 : Obj :=
  [ ("prompt", JString "hello"); ("model", JString "gpt-4") ].

Definition answer_gpt4 : JsVal :=
  JObject
    [ ("text", JString "你好");
      ("usage",
        JObject [ ("promptTokens", JNumber 9%float);
                  ("completionTokens", JNumber 12%float);
                  ("totalTokens", JNumber 21%float) ]);
      ("metadata",
        JObject [ ("model", JString "gpt-4");
                  ("finishReason", JString "stop") ]) ].

(** An upstream that never answers, and one whose body never arrives. *)
Definition upstream_silent (_ : Request) : Settled Response := Pending.

Definition upstream_stalled (_ : Request) : Settled Response :=
  Resolved {| status := 200; json := Pending |}.

Definition other_key : Ctx := {| env := [ ("OPENAI_API_KEY", JString "sk-other") ] |}.

Definition null_model : Obj := [ ("prompt", JString "hello"); ("model", JNull) ].

(** Two servers that answer every request, each in its own way. *)
Definition yoga_teapot (_ : YogaOptions) (_ : IncomingRequest) (_ : Ctx)
  : Async HttpResponse :=
  ret {| res_body := None; res_status := 418; res_headers := [] |}.

Definition yoga_gone (_ : YogaOptions) (_ : IncomingRequest) (_ : Ctx)
  : Async HttpResponse :=
  ret {| res_body := None; res_status := 410; res_headers := [] |}.

End Sample.

Section Worker.

(** The runtime's builtins and the world outside: number printing,
    [JSON.stringify] (a string, or [undefined]), the upstream behind the
    global [fetch], and the GraphQL server library. *)
Variable Number_toString : float -> string.
Variable JSON_stringify : JsVal -> JsVal.
Variable upstream : Request -> Settled Response.
Variable createYoga : YogaOptions -> IncomingRequest -> Ctx -> Async HttpResponse.

Let ToString := Platform.ToString Number_toString.

(** The [fetch] call of both resolvers (lines 46-66 and 91-111). *)
Definition completion_request (apiKey model : JsVal) (system_prompt : string)
    (content : JsVal) : Request :=
  {| url := completions_url;
     method := "POST";
     headers :=
       [ ("Content-Type", "application/json");
         ("Authorization", "Bearer " ++ ToString apiKey) ];
     body := JSON_stringify (completion_payload model system_prompt content) |}.

(** [if (!response.ok) { ... throw ... }] (lines 68-71 and 113-116). *)
Definition check_ok (response : Response) : Async unit :=
  if negb (ok response) then
    error <- await (json response) ;;
    throw (Error ("OpenAI API error: " ++ ToString (JSON_stringify error)))
  else ret tt.

(** [catch (error) { ... }] (lines 77-80 and 131-134). *)
Definition on_error (error : Exn) : Async JsVal :=
  console_error log_label error ;;;
  throw (Error failed_to_get_response).

Definition chat : Resolver := fun _ args ctx =>
  let message := own_property args "message" in
  let apiKey := own_property (env ctx) "OPENAI_API_KEY" in
  if negb (truthy apiKey) then throw (Error not_configured)
  else
    try_catch
      (response <- fetch upstream
                     (completion_request apiKey (JString "gpt-3.5-turbo")
                        chat_system_prompt message) ;;
       check_ok response ;;;
       data <- await (json response) ;;
       text <- read (path data ["choices"; "0"; "message"; "content"]) ;;
       ret (JObject [ ("text", text) ]))
      on_error.

Definition askOpenAI : Resolver := fun _ args ctx =>
  let prompt := own_property args "prompt" in
  let model := default_to (own_property args "model") (JString "gpt-3.5-turbo") in
  let apiKey := own_property (env ctx) "OPENAI_API_KEY" in
  if negb (truthy apiKey) then throw (Error not_configured)
  else
    try_catch
      (response <- fetch upstream
                     (completion_request apiKey model askOpenAI_system_prompt prompt) ;;
       check_ok response ;;;
       data <- await (json response) ;;
       text <- read (path data ["choices"; "0"; "message"; "content"]) ;;
       promptTokens <- read (path data ["usage"; "prompt_tokens"]) ;;
       completionTokens <- read (path data ["usage"; "completion_tokens"]) ;;
       totalTokens <- read (path data ["usage"; "total_tokens"]) ;;
       finishReason <- read (path data ["choices"; "0"; "finish_reason"]) ;;
       ret (JObject
              [ ("text", text);
                ("usage",
                  JObject [ ("promptTokens", promptTokens);
                            ("completionTokens", completionTokens);
                            ("totalTokens", totalTokens) ]);
                ("metadata",
                  JObject [ ("model", model);
                            ("finishReason", finishReason) ]) ]))
      on_error.

Definition resolvers : Resolvers :=
  {| Query_chat := chat; Query_askOpenAI := askOpenAI |}.

Definition yoga : IncomingRequest -> Ctx -> Async HttpResponse :=
  createYoga
    {| schema := makeExecutableSchema typeDefs resolvers;
       graphqlEndpoint := "/*";
       landingPage := false;
       cors := {| origin := "*";
                  methods := ["GET"; "POST"; "OPTIONS"];
                  allowedHeaders := ["Content-Type"; "Authorization";
                                     "Apollo-Require-Preflight"];
                  credentials := false;
                  maxAge := 86400 |} |}.

(** The preflight answer, [new Response(null, { status: 204, headers })]. *)
Definition preflight_response : HttpResponse :=
  {| res_body := None;
     res_status := 204;
     res_headers :=
       [ ("Access-Control-Allow-Origin", "*");
         ("Access-Control-Allow-Methods", "GET, POST, OPTIONS");
         ("Access-Control-Allow-Headers",
           "Content-Type, Authorization, Apollo-Require-Preflight");
         ("Access-Control-Max-Age", "86400") ] |}.

(** The Workers handler, [export default { async fetch(request, env, ctx) }];
    its third argument, the execution context, is not used.  From here on
    [fetch] is the handler and [Platform.fetch] the global. *)
Definition fetch (request : IncomingRequest) (env : Obj) (ctx : JsVal)
  : Async HttpResponse :=
  if String.eqb (req_method request) "OPTIONS" then ret preflight_response
  else yoga request {| env := env |}.

(* ------------------------------------------------------------------- *)
(** *** Vocabulary of the properties *)

(** The two operations of the schema, the resolver of each, the text the
    caller supplies to it and the request it sends. *)
Inductive Operation : Type := Chat | AskOpenAI.

Definition resolver_of (op : Operation) : Resolver :=
  match op with
  | Chat => Query_chat resolvers
  | AskOpenAI => Query_askOpenAI resolvers
  end.

Definition apiKey_of (ctx : Ctx) : JsVal := own_property (env ctx) "OPENAI_API_KEY".

Definition user_text (op : Operation) (args : Obj) : JsVal :=
  match op with
  | Chat => own_property args "message"
  | AskOpenAI => own_property args "prompt"
  end.

Definition chat_request (args : Obj) (ctx : Ctx) : Request :=
  completion_request (apiKey_of ctx) (JString "gpt-3.5-turbo") chat_system_prompt
    (own_property args "message").

Definition askOpenAI_request (args : Obj) (ctx : Ctx) : Request :=
  completion_request (apiKey_of ctx)
    (default_to (own_property args "model") (JString "gpt-3.5-turbo"))
    askOpenAI_system_prompt (own_property args "prompt").

Definition request_of (op : Operation) (args : Obj) (ctx : Ctx) : Request :=
  match op with
  | Chat => chat_request args ctx
  | AskOpenAI => askOpenAI_request args ctx
  end.

(** [usage[total] == usage[prompt] + usage[completion]], on numbers. *)
Definition total_is_sum (usage : JsVal) (prompt completion total : string) : bool :=
  match get usage prompt, get usage completion, get usage total with
  | inr (JNumber p), inr (JNumber c), inr (JNumber t) => PrimFloat.eqb t (p + c)
  | _, _, _ => false
  end.

(** What the [try] block of a resolver does once the response is in and
    its body is parsed. *)
Definition shape (op : Operation) (args : Obj) (data : JsVal) : Exn + JsVal :=
  match op with
  | Chat =>
      match path data ["choices"; "0"; "message"; "content"] with
      | inl e => inl e
      | inr text => inr (JObject [ ("text", text) ])
      end
  | AskOpenAI =>
      match path data ["choices"; "0"; "message"; "content"] with
      | inl e => inl e
      | inr text =>
      match path data ["usage"; "prompt_tokens"] with
      | inl e => inl e
      | inr promptTokens =>
      match path data ["usage"; "completion_tokens"] with
      | inl e => inl e
      | inr completionTokens =>
      match path data ["usage"; "total_tokens"] with
      | inl e => inl e
      | inr totalTokens =>
      match path data ["choices"; "0"; "finish_reason"] with
      | inl e => inl e
      | inr finishReason =>
          inr (JObject
                 [ ("text", text);
                   ("usage",
                     JObject [ ("promptTokens", promptTokens);
                               ("completionTokens", completionTokens);
                               ("totalTokens", totalTokens) ]);
                   ("metadata",
                     JObject [ ("model",
                                 default_to (own_property args "model")
                                   (JString "gpt-3.5-turbo"));
                               ("finishReason", finishReason) ]) ])
      end end end end end
  end.

(** The error the [catch] block logs when the [try] block throws [e]. *)
Definition caught (op : Operation) (args : Obj) (ctx : Ctx) (e : Exn) (t : Trace)
  : Outcome JsVal * Trace :=
  (Thrown (Error failed_to_get_response),
   (t ++ [Fetched (request_of op args ctx); ConsoleError log_label e])%list).

(* ------------------------------------------------------------------- *)
(** *** How a resolver runs *)

Lemma own_property_absent (o : Obj) (k : string) :
  ~ In k (map fst o) -> own_property o k = JUndefined.
Proof.
  induction o as [| [k' v] rest IH]; simpl; intro Hnot.
  - reflexivity.
  - destruct (String.eqb_spec k' k) as [-> | _].
    + exfalso. apply Hnot. now left.
    + apply IH. intro Hin. apply Hnot. now right.
Qed.

(** Without a truthy key a resolver throws before it does anything. *)
Lemma unconfigured (op : Operation) (parent : JsVal) (args : Obj) (ctx : Ctx) (t : Trace) :
  truthy (apiKey_of ctx) = false ->
  resolver_of op parent args ctx t = (Thrown (Error not_configured), t).
Proof.
  unfold apiKey_of. intro Hkey.
  destruct op; simpl; [unfold chat | unfold askOpenAI]; now rewrite Hkey.
Qed.

(** Every run of a resolver with a truthy key, by what the upstream does. *)
Lemma configured (op : Operation) (parent : JsVal) (args : Obj) (ctx : Ctx) (t : Trace) :
  truthy (apiKey_of ctx) = true ->
  resolver_of op parent args ctx t =
    match upstream (request_of op args ctx) with
    | Pending => (Hung, (t ++ [Fetched (request_of op args ctx)])%list)
    | Rejected e => caught op args ctx e t
    | Resolved response =>
        match json response with
        | Pending => (Hung, (t ++ [Fetched (request_of op args ctx)])%list)
        | Rejected e => caught op args ctx e t
        | Resolved data =>
            if ok response then
              match shape op args data with
              | inl e => caught op args ctx e t
              | inr result =>
                  (Returned result, (t ++ [Fetched (request_of op args ctx)])%list)
              end
            else
              caught op args ctx
                (Error ("OpenAI API error: " ++ ToString (JSON_stringify data))) t
        end
    end.
Proof.
  unfold apiKey_of. intro Hkey.
  destruct op; simpl resolver_of; [unfold chat | unfold askOpenAI];
    rewrite Hkey; cbn [negb].
  all: unfold request_of, chat_request, askOpenAI_request, apiKey_of, caught.
  all: unfold try_catch, bind, Platform.fetch, on_error, console_error, bind, throw.
  all: match goal with |- context [upstream ?r] => destruct (upstream r) as [response | e |] end.
  all: unfold await; try reflexivity; try (now rewrite <- app_assoc).
  all: unfold check_ok, bind, await, throw, ret.
  all: destruct (json response) as [data | e |]; destruct (ok response);
    cbn [negb]; try reflexivity; try (now rewrite <- app_assoc).
  all: unfold shape, read, throw, ret.
  all: repeat match goal with
              | |- context [path ?d ?ks] => destruct (path d ks)
              end; try reflexivity; now rewrite <- app_assoc.
Qed.

Lemma outbound_app (t1 t2 : Trace) :
  outbound (t1 ++ t2)%list = (outbound t1 ++ outbound t2)%list.
Proof. unfold outbound. now rewrite flat_map_app. Qed.

Lemma logged_app (t1 t2 : Trace) :
  logged (t1 ++ t2)%list = (logged t1 ++ logged t2)%list.
Proof. unfold logged. now rewrite flat_map_app. Qed.

(** With a truthy key a resolver always extends the trace by its one
    request, and by at most one diagnostic line after it. *)
Lemma configured_trace (op : Operation) (parent : JsVal) (args : Obj) (ctx : Ctx)
    (t : Trace) :
  truthy (apiKey_of ctx) = true ->
  exists tail,
    snd (resolver_of op parent args ctx t)
      = (t ++ Fetched (request_of op args ctx) :: tail)%list /\
    (tail = [] \/ exists e, tail = [ConsoleError log_label e]).
Proof.
  intro Hkey. rewrite (configured op parent args ctx t Hkey). unfold caught.
  destruct (upstream (request_of op args ctx)) as [response | e |];
    [destruct (json response) as [data | e |];
       [destruct (ok response); [destruct (shape op args data) as [e | result] |] | |] | |];
    simpl snd; eauto.
Qed.

Lemma configured_calls_once (op : Operation) (parent : JsVal) (args : Obj) (ctx : Ctx)
    (t : Trace) :
  truthy (apiKey_of ctx) = true ->
  outbound (snd (resolver_of op parent args ctx t))
    = (outbound t ++ [request_of op args ctx])%list.
Proof.
  intro Hkey.
  destruct (configured_trace op parent args ctx t Hkey) as (tail & -> & Htail).
  rewrite outbound_app.
  destruct Htail as [-> | [e ->]]; reflexivity.
Qed.

(** A template literal prints a string as it is, so a string key goes into
    the header unchanged. *)
Lemma ToString_string (s : string) : ToString (JString s) = s.
Proof. reflexivity. Qed.

Lemma bearer_of_string_key (op : Operation) (args : Obj) (ctx : Ctx) (s : string) :
  apiKey_of ctx = JString s ->
  headers (request_of op args ctx)
    = [ ("Content-Type", "application/json"); ("Authorization", "Bearer " ++ s) ].
Proof. intro Hkey. destruct op; simpl; now rewrite Hkey. Qed.

(** The default applies to a missing [model] only: the request is then the
    one an explicit "gpt-3.5-turbo" gives, while an explicit [null] stays. *)
Lemma omitted_model_is_sent_as_the_default (prompt : JsVal) (ctx : Ctx) :
  askOpenAI_request [ ("prompt", prompt) ] ctx
    = askOpenAI_request [ ("prompt", prompt); ("model", JString "gpt-3.5-turbo") ] ctx.
Proof. reflexivity. Qed.

Lemma null_model_is_not_defaulted (d : JsVal) : default_to JNull d = JNull.
Proof. reflexivity. Qed.

(** The values the credential check rejects. *)
Lemma falsy_values (v : JsVal) :
  truthy v = false <->
  v = JUndefined \/ v = JNull \/ v = JBool false \/ v = JString "" \/
  exists f, v = JNumber f /\
            (PrimFloat.eqb f 0%float = true \/ PrimFloat.eqb f f = false).
Proof.
  split.
  - destruct v as [| | [|] | f | s | l | o]; simpl; intro H; try discriminate; auto.
    + right; right; right; right. exists f. split; [reflexivity |].
      destruct (PrimFloat.eqb f 0%float); [now left |].
      simpl in H. now right.
    + destruct (String.eqb_spec s ""); [subst; auto | discriminate].
  - intros [-> | [-> | [-> | [-> | (f & -> & [H | H])]]]]; simpl; try reflexivity.
    + now rewrite H.
    + rewrite H. apply andb_false_r.
Qed.

(* ------------------------------------------------------------------- *)
(** *** The properties *)

(** C1. With the credential in place, when the upstream answers with a
    success status and a JSON body whose first choice has a message
    content, [chat] returns the record with the one field [text], equal to
    that content, whatever the message is (empty or not); the only effect
    is the one request. *)
Theorem chat_returns_first_choice_text
    (parent : JsVal) (args : Obj) (ctx : Ctx) (t : Trace)
    (response : Response) (data content : JsVal) :
  truthy (apiKey_of ctx) = true ->
  upstream (chat_request args ctx) = Resolved response ->
  ok response = true ->
  json response = Resolved data ->
  path data ["choices"; "0"; "message"; "content"] = inr content ->
  chat parent args ctx t
    = (Returned (JObject [ ("text", content) ]),
       (t ++ [Fetched (chat_request args ctx)])%list).
Proof.
  intros Hkey Hup Hok Hjson Hpath.
  change (chat parent args ctx t) with (resolver_of Chat parent args ctx t).
  rewrite (configured Chat parent args ctx t Hkey).
  simpl request_of. rewrite Hup, Hjson, Hok.
  unfold shape. now rewrite Hpath.
Qed.

(** C2. When the environment has no [OPENAI_API_KEY], either resolver fails
    with the error "OpenAI API key is not configured" and leaves the trace
    as it was: no outbound call is made. *)
Theorem missing_key_is_a_configuration_error
    (op : Operation) (parent : JsVal) (args : Obj) (ctx : Ctx) (t : Trace) :
  ~ In "OPENAI_API_KEY" (map fst (env ctx)) ->
  resolver_of op parent args ctx t
    = (Thrown (Error "OpenAI API key is not configured"), t) /\
  outbound (snd (resolver_of op parent args ctx [])) = [].
Proof.
  intro Habsent.
  assert (Hkey : truthy (apiKey_of ctx) = false).
  { unfold apiKey_of. now rewrite (own_property_absent _ _ Habsent). }
  split.
  - now apply unconfigured.
  - now rewrite (unconfigured op parent args ctx [] Hkey).
Qed.

(** C9. When the environment's [OPENAI_API_KEY] is the empty string, or any
    other falsy value, either resolver fails with the error "OpenAI API key
    is not configured" and leaves the trace as it was: no outbound call is
    made. *)
Theorem falsy_key_is_a_configuration_error
    (op : Operation) (parent : JsVal) (args : Obj) (ctx : Ctx) (t : Trace)
    (key : JsVal) :
  apiKey_of ctx = key ->
  key = JString "" \/ truthy key = false ->
  resolver_of op parent args ctx t
    = (Thrown (Error "OpenAI API key is not configured"), t) /\
  outbound (snd (resolver_of op parent args ctx [])) = [].
Proof.
  intros Hget Hfalsy.
  assert (Hkey : truthy (apiKey_of ctx) = false).
  { rewrite Hget. destruct Hfalsy as [-> | H]; [reflexivity | exact H]. }
  split.
  - now apply unconfigured.
  - now rewrite (unconfigured op parent args ctx [] Hkey).
Qed.

(** The check is exactly falsiness: with a truthy key no resolver ends in
    the configuration error with the trace untouched. *)
Lemma truthy_key_passes_the_check
    (op : Operation) (parent : JsVal) (args : Obj) (ctx : Ctx) (t : Trace) :
  truthy (apiKey_of ctx) = true ->
  snd (resolver_of op parent args ctx t) <> t.
Proof.
  intros Hkey Heq.
  destruct (configured_trace op parent args ctx t Hkey) as (tail & Htrace & _).
  rewrite Heq in Htrace. apply (f_equal (@List.length Event)) in Htrace.
  rewrite length_app in Htrace. simpl in Htrace. lia.
Qed.

(** C3. With the credential in place, when the upstream answers with a
    non-success status and a JSON error body, either resolver fails with
    exactly "Failed to get response from OpenAI", whatever the body is, and
    writes one diagnostic line (which is where the upstream's payload
    goes). *)
Theorem upstream_failure_is_generic_and_logged_once
    (op : Operation) (parent : JsVal) (args : Obj) (ctx : Ctx) (t : Trace)
    (response : Response) (error : JsVal) :
  truthy (apiKey_of ctx) = true ->
  upstream (request_of op args ctx) = Resolved response ->
  ok response = false ->
  json response = Resolved error ->
  resolver_of op parent args ctx t
    = (Thrown (Error "Failed to get response from OpenAI"),
       (t ++ [ Fetched (request_of op args ctx);
               ConsoleError "Error calling OpenAI:"
                 (Error ("OpenAI API error: " ++ ToString (JSON_stringify error))) ])%list)
  /\ logged (snd (resolver_of op parent args ctx t))
     = (logged t ++
        [ ("Error calling OpenAI:",
           Error ("OpenAI API error: " ++ ToString (JSON_stringify error))) ])%list.
Proof.
  intros Hkey Hup Hok Hjson.
  rewrite (configured op parent args ctx t Hkey), Hup, Hjson, Hok.
  unfold caught. split; [reflexivity |].
  simpl snd. now rewrite logged_app.
Qed.

(** A successful run of a resolver is the reshaping of a body the upstream
    sent with a success status. *)
Lemma returned_inv (op : Operation) (parent : JsVal) (args : Obj) (ctx : Ctx)
    (t t' : Trace) (result : JsVal) :
  resolver_of op parent args ctx t = (Returned result, t') ->
  exists response data,
    upstream (request_of op args ctx) = Resolved response /\
    ok response = true /\
    json response = Resolved data /\
    shape op args data = inr result.
Proof.
  intro Hrun.
  destruct (truthy (apiKey_of ctx)) eqn:Hkey.
  - rewrite (configured op parent args ctx t Hkey) in Hrun. unfold caught in Hrun.
    destruct (upstream (request_of op args ctx)) as [response | e |];
      try discriminate.
    destruct (json response) as [data | e |] eqn:Hjson; try discriminate.
    destruct (ok response) eqn:Hok; try discriminate.
    destruct (shape op args data) as [e | result'] eqn:Hshape; try discriminate.
    inversion Hrun; subst. now exists response, data.
  - rewrite (unconfigured op parent args ctx t Hkey) in Hrun. discriminate.
Qed.

Lemma path_two (v : JsVal) (k1 k2 : string) (x : JsVal) :
  path v [k1; k2] = inr x ->
  exists mid, get v k1 = inr mid /\ get mid k2 = inr x.
Proof.
  simpl. destruct (get v k1) as [e | mid]; [discriminate |].
  destruct (get mid k2) as [e | x'] eqn:H2; [discriminate |].
  intro H. inversion H; subst. now exists mid.
Qed.

(** C4. The usage record of every successful [askOpenAI] result holds the
    upstream body's [prompt_tokens], [completion_tokens] and [total_tokens]
    as they came; so when the upstream's total is the sum of its two other
    counts, the result's total is the sum of the result's. *)
Theorem usage_is_passed_through
    (parent : JsVal) (args : Obj) (ctx : Ctx) (t t' : Trace) (result : JsVal) :
  askOpenAI parent args ctx t = (Returned result, t') ->
  exists response data usage promptTokens completionTokens totalTokens,
    upstream (askOpenAI_request args ctx) = Resolved response /\
    json response = Resolved data /\
    get data "usage" = inr usage /\
    get usage "prompt_tokens" = inr promptTokens /\
    get usage "completion_tokens" = inr completionTokens /\
    get usage "total_tokens" = inr totalTokens /\
    get result "usage"
      = inr (JObject [ ("promptTokens", promptTokens);
                       ("completionTokens", completionTokens);
                       ("totalTokens", totalTokens) ]) /\
    (total_is_sum usage "prompt_tokens" "completion_tokens" "total_tokens" = true ->
     forall usage', get result "usage" = inr usage' ->
     total_is_sum usage' "promptTokens" "completionTokens" "totalTokens" = true).
Proof.
  intro Hrun.
  destruct (returned_inv AskOpenAI parent args ctx t t' result Hrun)
    as (response & data & Hup & _ & Hjson & Hshape).
  simpl in Hup. unfold shape in Hshape.
  destruct (path data ["choices"; "0"; "message"; "content"]) as [e | text];
    [discriminate |].
  destruct (path data ["usage"; "prompt_tokens"]) as [e | p] eqn:Hp; [discriminate |].
  destruct (path data ["usage"; "completion_tokens"]) as [e | c] eqn:Hc; [discriminate |].
  destruct (path data ["usage"; "total_tokens"]) as [e | tot] eqn:Ht; [discriminate |].
  destruct (path data ["choices"; "0"; "finish_reason"]) as [e | reason];
    [discriminate |].
  inversion Hshape; subst result; clear Hshape.
  destruct (path_two _ _ _ _ Hp) as (usage & Husage & Hp').
  destruct (path_two _ _ _ _ Hc) as (usage1 & Husage1 & Hc').
  destruct (path_two _ _ _ _ Ht) as (usage2 & Husage2 & Ht').
  rewrite Husage in Husage1, Husage2.
  inversion Husage1; subst usage1. inversion Husage2; subst usage2.
  exists response, data, usage, p, c, tot.
  repeat (split; [assumption || reflexivity |]).
  intros Hsum usage' Hres. simpl in Hres. inversion Hres; subst usage'.
  unfold total_is_sum in *. rewrite Hp', Hc', Ht' in Hsum. exact Hsum.
Qed.

(** C5. In every successful [askOpenAI] result, whatever the upstream
    sent: [metadata.model] is "gpt-3.5-turbo" for every call that omits
    [model] (or passes [undefined]), and it is the caller's own [model],
    unchanged, for every call that gives one. *)
Theorem metadata_model_is_the_requested_one
    (parent : JsVal) (args : Obj) (ctx : Ctx) (t t' : Trace) (result : JsVal) :
  askOpenAI parent args ctx t = (Returned result, t') ->
  (~ In "model" (map fst args) ->
   path result ["metadata"; "model"] = inr (JString "gpt-3.5-turbo")) /\
  (own_property args "model" = JUndefined ->
   path result ["metadata"; "model"] = inr (JString "gpt-3.5-turbo")) /\
  (forall model,
      own_property args "model" = model ->
      model <> JUndefined ->
      path result ["metadata"; "model"] = inr model) /\
  path result ["metadata"; "model"]
    = inr (default_to (own_property args "model") (JString "gpt-3.5-turbo")).
Proof.
  intro Hrun.
  destruct (returned_inv AskOpenAI parent args ctx t t' result Hrun)
    as (response & data & _ & _ & _ & Hshape).
  unfold shape in Hshape.
  destruct (path data ["choices"; "0"; "message"; "content"]) as [e | text];
    [discriminate |].
  destruct (path data ["usage"; "prompt_tokens"]) as [e | p]; [discriminate |].
  destruct (path data ["usage"; "completion_tokens"]) as [e | c]; [discriminate |].
  destruct (path data ["usage"; "total_tokens"]) as [e | tot]; [discriminate |].
  destruct (path data ["choices"; "0"; "finish_reason"]) as [e | reason];
    [discriminate |].
  inversion Hshape; subst result; clear Hshape.
  match goal with
  | |- context [path ?r ["metadata"; "model"]] =>
      change (path r ["metadata"; "model"])
        with (@inr Exn JsVal
                (default_to (own_property args "model") (JString "gpt-3.5-turbo")))
  end.
  split; [| split; [| split]].
  - intro Habsent. now rewrite (own_property_absent _ _ Habsent).
  - intros ->. reflexivity.
  - intros model <- Hgiven.
    destruct (own_property args "model"); try reflexivity.
    now contradiction Hgiven.
  - reflexivity.
Qed.

(** C6, as the code has it. An [OPTIONS] request, whatever its path,
    headers and body, is answered with status 204, no body and four CORS
    headers (allowed origin, methods and headers, and the preflight
    lifetime); the server library, the resolvers and the upstream play no
    part, and the trace stays as it was. *)
Theorem preflight_is_answered_directly
    (request : IncomingRequest) (env0 : Obj) (ctx : JsVal) (t : Trace) :
  req_method request = "OPTIONS" ->
  fetch request env0 ctx t
    = (Returned
         {| res_body := None;
            res_status := 204;
            res_headers :=
              [ ("Access-Control-Allow-Origin", "*");
                ("Access-Control-Allow-Methods", "GET, POST, OPTIONS");
                ("Access-Control-Allow-Headers",
                  "Content-Type, Authorization, Apollo-Require-Preflight");
                ("Access-Control-Max-Age", "86400") ] |},
       t).
Proof.
  intro Hmethod. unfold fetch. now rewrite Hmethod.
Qed.

(** C7. With the credential in place, [chat] makes one outbound call: a
    POST to the https chat-completion endpoint, with the credential after
    "Bearer " in the [Authorization] header, and as body the serialised
    object with the model "gpt-3.5-turbo", the system instruction followed
    by the user's message, and the temperature 0.7. *)
Theorem chat_sends_one_fixed_request
    (parent : JsVal) (args : Obj) (ctx : Ctx) (t : Trace) :
  truthy (apiKey_of ctx) = true ->
  outbound (snd (chat parent args ctx t))
    = (outbound t ++
       [ {| url := "https://api.openai.com/v1/chat/completions";
            method := "POST";
            headers :=
              [ ("Content-Type", "application/json");
                ("Authorization", ("Bearer " ++ ToString (apiKey_of ctx))%string) ];
            body :=
              JSON_stringify
                (JObject
                   [ ("model", JString "gpt-3.5-turbo");
                     ("messages",
                       JArray
                         [ JObject [ ("role", JString "system");
                                     ("content",
                                       JString "请用中文回复用户的所有问题。") ];
                           JObject [ ("role", JString "user");
                                     ("content", own_property args "message") ] ]);
                     ("temperature", JNumber 0.7%float) ]) |} ])%list.
Proof.
  intro Hkey. exact (configured_calls_once Chat parent args ctx t Hkey).
Qed.

(** C8. With the credential in place, whatever goes wrong in a resolver
    after the check comes out as the error "Failed to get response from
    OpenAI", logged once: a rejected [fetch], a body that is not JSON, a
    body without the fields read (an empty [choices] among them); and no
    run ends in any other exception. *)
Theorem failures_are_caught_and_wrapped
    (op : Operation) (parent : JsVal) (args : Obj) (ctx : Ctx) (t : Trace) :
  truthy (apiKey_of ctx) = true ->
  (forall e,
      upstream (request_of op args ctx) = Rejected e ->
      resolver_of op parent args ctx t
        = (Thrown (Error "Failed to get response from OpenAI"),
           (t ++ [ Fetched (request_of op args ctx);
                   ConsoleError "Error calling OpenAI:" e ])%list)) /\
  (forall response e,
      upstream (request_of op args ctx) = Resolved response ->
      json response = Rejected e ->
      resolver_of op parent args ctx t
        = (Thrown (Error "Failed to get response from OpenAI"),
           (t ++ [ Fetched (request_of op args ctx);
                   ConsoleError "Error calling OpenAI:" e ])%list)) /\
  (forall response data e,
      upstream (request_of op args ctx) = Resolved response ->
      ok response = true ->
      json response = Resolved data ->
      shape op args data = inl e ->
      resolver_of op parent args ctx t
        = (Thrown (Error "Failed to get response from OpenAI"),
           (t ++ [ Fetched (request_of op args ctx);
                   ConsoleError "Error calling OpenAI:" e ])%list)) /\
  (forall response others,
      upstream (request_of op args ctx) = Resolved response ->
      ok response = true ->
      json response = Resolved (JObject (("choices", JArray []) :: others)) ->
      fst (resolver_of op parent args ctx t)
        = Thrown (Error "Failed to get response from OpenAI")) /\
  (forall e,
      fst (resolver_of op parent args ctx t) = Thrown e ->
      e = Error "Failed to get response from OpenAI").
Proof.
  intro Hkey. rewrite (configured op parent args ctx t Hkey). unfold caught.
  repeat split.
  - intros e ->. reflexivity.
  - intros response e -> ->. reflexivity.
  - intros response data e -> Hok -> ->. now rewrite Hok.
  - intros response others -> Hok ->. rewrite Hok. now destruct op.
  - intros e.
    destruct (upstream (request_of op args ctx)) as [response | e' |];
      [destruct (json response) as [data | e' |];
         [destruct (ok response); [destruct (shape op args data) |] | |] | |];
      simpl; intro H; inversion H; reflexivity.
Qed.

(** C10. With the credential in place, either resolver makes one outbound
    call, to the same endpoint; its body is the serialised object whose
    [messages] are exactly two, a system message and then the user message
    whose content is the caller's text as given, and whose temperature is
    0.7. *)
Theorem user_text_is_sent_as_given
    (op : Operation) (parent : JsVal) (args : Obj) (ctx : Ctx) (t : Trace) :
  truthy (apiKey_of ctx) = true ->
  exists request model system_prompt,
    outbound (snd (resolver_of op parent args ctx t))
      = (outbound t ++ [request])%list /\
    url request = "https://api.openai.com/v1/chat/completions" /\
    body request
      = JSON_stringify
          (JObject
             [ ("model", model);
               ("messages",
                 JArray
                   [ JObject [ ("role", JString "system");
                               ("content", JString system_prompt) ];
                     JObject [ ("role", JString "user");
                               ("content", user_text op args) ] ]);
               ("temperature", JNumber 0.7%float) ]).
Proof.
  intro Hkey. exists (request_of op args ctx).
  destruct op.
  - exists (JString "gpt-3.5-turbo"), chat_system_prompt.
    split; [exact (configured_calls_once Chat parent args ctx t Hkey) |].
    split; reflexivity.
  - exists (default_to (own_property args "model") (JString "gpt-3.5-turbo")),
      askOpenAI_system_prompt.
    split; [exact (configured_calls_once AskOpenAI parent args ctx t Hkey) |].
    split; reflexivity.
Qed.

(* ------------------------------------------------------------------- *)
(** *** Further properties of the resolvers *)

Lemma get_total (v : JsVal) (k : string) :
  nullish v = false -> exists x, get v k = inr x.
Proof. destruct v; simpl; intro H; try discriminate; eauto. Qed.

Lemma get_throws (v : JsVal) (k : string) (e : Exn) :
  get v k = inl e -> nullish v = true.
Proof. destruct v; simpl; intro H; try discriminate; reflexivity. Qed.

Lemma path_app (v : JsVal) (ks1 ks2 : list string) :
  path v (ks1 ++ ks2)%list
    = match path v ks1 with
      | inl e => inl e
      | inr x => path x ks2
      end.
Proof.
  revert v. induction ks1 as [| k ks IH]; intro v; simpl.
  - reflexivity.
  - destruct (get v k); [reflexivity | apply IH].
Qed.

(** One more property can be read exactly when there is something to read
    it from. *)
Lemma path_step (v : JsVal) (ks : list string) (k : string) :
  (exists x, path v (ks ++ [k])%list = inr x) <-> present v ks = true.
Proof.
  rewrite path_app. unfold present. destruct (path v ks) as [e | x].
  - split; [intros [y H] |]; discriminate.
  - simpl. destruct (get x k) as [e | y] eqn:Hget.
    + apply get_throws in Hget. rewrite Hget.
      split; [intros [z H] |]; discriminate.
    + split; [intros _ | eauto].
      destruct x; simpl in *; try reflexivity; discriminate.
Qed.

Lemma present_prefix (v : JsVal) (ks : list string) (k : string) :
  present v (ks ++ [k])%list = true -> present v ks = true.
Proof.
  intro H. apply (path_step v ks k). unfold present in H.
  destruct (path v (ks ++ [k])%list) as [e | x]; [discriminate | eauto].
Qed.

(** X1. With the credential in place, when the upstream answers with a
    success status and a body in which the five reads work, [askOpenAI]
    returns the record of exactly three fields: the first choice's message
    content, the three token counts, and the model with the first choice's
    finish reason. *)
Theorem askOpenAI_returns_the_reshaped_completion
    (parent : JsVal) (args : Obj) (ctx : Ctx) (t : Trace) (response : Response)
    (data text promptTokens completionTokens totalTokens finishReason : JsVal) :
  truthy (apiKey_of ctx) = true ->
  upstream (askOpenAI_request args ctx) = Resolved response ->
  ok response = true ->
  json response = Resolved data ->
  path data ["choices"; "0"; "message"; "content"] = inr text ->
  path data ["usage"; "prompt_tokens"] = inr promptTokens ->
  path data ["usage"; "completion_tokens"] = inr completionTokens ->
  path data ["usage"; "total_tokens"] = inr totalTokens ->
  path data ["choices"; "0"; "finish_reason"] = inr finishReason ->
  askOpenAI parent args ctx t
    = (Returned
         (JObject
            [ ("text", text);
              ("usage",
                JObject [ ("promptTokens", promptTokens);
                          ("completionTokens", completionTokens);
                          ("totalTokens", totalTokens) ]);
              ("metadata",
                JObject [ ("model",
                            default_to (own_property args "model")
                              (JString "gpt-3.5-turbo"));
                          ("finishReason", finishReason) ]) ]),
       (t ++ [Fetched (askOpenAI_request args ctx)])%list).
Proof.
  intros Hkey Hup Hok Hjson Htext Hp Hc Ht Hreason.
  change (askOpenAI parent args ctx t) with (resolver_of AskOpenAI parent args ctx t).
  rewrite (configured AskOpenAI parent args ctx t Hkey).
  simpl request_of. rewrite Hup, Hjson, Hok.
  unfold shape. now rewrite Htext, Hp, Hc, Ht, Hreason.
Qed.

(** X2. With the credential in place, [askOpenAI] makes one outbound call: a
    POST to the https chat-completion endpoint, with the credential after
    "Bearer " in the [Authorization] header, and as body the serialised
    object with the model asked for ("gpt-3.5-turbo" when none is), its own
    system instruction followed by the prompt, and the temperature 0.7. *)
Theorem askOpenAI_sends_one_fixed_request
    (parent : JsVal) (args : Obj) (ctx : Ctx) (t : Trace) :
  truthy (apiKey_of ctx) = true ->
  outbound (snd (askOpenAI parent args ctx t))
    = (outbound t ++
       [ {| url := "https://api.openai.com/v1/chat/completions";
            method := "POST";
            headers :=
              [ ("Content-Type", "application/json");
                ("Authorization", ("Bearer " ++ ToString (apiKey_of ctx))%string) ];
            body :=
              JSON_stringify
                (JObject
                   [ ("model",
                       default_to (own_property args "model") (JString "gpt-3.5-turbo"));
                     ("messages",
                       JArray
                         [ JObject [ ("role", JString "system");
                                     ("content", JString askOpenAI_system_prompt) ];
                           JObject [ ("role", JString "user");
                                     ("content", own_property args "prompt") ] ]);
                     ("temperature", JNumber 0.7%float) ]) |} ])%list.
Proof.
  intro Hkey. exact (configured_calls_once AskOpenAI parent args ctx t Hkey).
Qed.

(** X3. Once a success response with a JSON body is in, [chat] returns
    exactly when the body's [choices[0].message] is there (neither [null] nor
    [undefined]); a missing [content] alone is no failure.  Otherwise it
    throws the wrapped error. *)
Theorem chat_needs_the_first_message
    (parent : JsVal) (args : Obj) (ctx : Ctx) (t : Trace)
    (response : Response) (data : JsVal) :
  truthy (apiKey_of ctx) = true ->
  upstream (chat_request args ctx) = Resolved response ->
  ok response = true ->
  json response = Resolved data ->
  ((exists result, fst (chat parent args ctx t) = Returned result) <->
   present data ["choices"; "0"; "message"] = true) /\
  (present data ["choices"; "0"; "message"] = false ->
   fst (chat parent args ctx t) = Thrown (Error "Failed to get response from OpenAI")).
Proof.
  intros Hkey Hup Hok Hjson.
  change (chat parent args ctx t) with (resolver_of Chat parent args ctx t).
  rewrite (configured Chat parent args ctx t Hkey).
  simpl request_of. rewrite Hup, Hjson, Hok. unfold shape, caught.
  rewrite <- (path_step data ["choices"; "0"; "message"] "content").
  change (["choices"; "0"; "message"] ++ ["content"])%list
    with ["choices"; "0"; "message"; "content"].
  destruct (path data ["choices"; "0"; "message"; "content"]) as [e | text] eqn:Hpath;
    simpl fst.
  - split.
    + split; [intros [result H]; discriminate | intros [x H]; discriminate].
    + reflexivity.
  - split.
    + split; intros _; eexists; reflexivity.
    + intro Habsent.
      assert (Hyes : present data ["choices"; "0"; "message"] = true).
      { apply (path_step data ["choices"; "0"; "message"] "content"). eauto. }
      rewrite Hyes in Habsent. discriminate.
Qed.

(** X4. Once a success response with a JSON body is in, [askOpenAI] returns
    exactly when the body's [choices[0].message] and its [usage] are both
    there; otherwise it throws the wrapped error. *)
Theorem askOpenAI_needs_the_first_message_and_usage
    (parent : JsVal) (args : Obj) (ctx : Ctx) (t : Trace)
    (response : Response) (data : JsVal) :
  truthy (apiKey_of ctx) = true ->
  upstream (askOpenAI_request args ctx) = Resolved response ->
  ok response = true ->
  json response = Resolved data ->
  ((exists result, fst (askOpenAI parent args ctx t) = Returned result) <->
   present data ["choices"; "0"; "message"] = true /\ present data ["usage"] = true) /\
  (present data ["choices"; "0"; "message"] = false \/ present data ["usage"] = false ->
   fst (askOpenAI parent args ctx t) = Thrown (Error "Failed to get response from OpenAI")).
Proof.
  intros Hkey Hup Hok Hjson.
  change (askOpenAI parent args ctx t) with (resolver_of AskOpenAI parent args ctx t).
  rewrite (configured AskOpenAI parent args ctx t Hkey).
  simpl request_of. rewrite Hup, Hjson, Hok. unfold caught.
  assert (Hiff : (exists result, shape AskOpenAI args data = inr result) <->
                 present data ["choices"; "0"; "message"] = true /\
                 present data ["usage"] = true).
  { unfold shape. split.
    - intros [result Hshape].
      destruct (path data ["choices"; "0"; "message"; "content"]) as [e | text] eqn:Htext;
        [discriminate |].
      destruct (path data ["usage"; "prompt_tokens"]) as [e | p] eqn:Hp; [discriminate |].
      split.
      + apply (path_step data ["choices"; "0"; "message"] "content"). eauto.
      + apply (path_step data ["usage"] "prompt_tokens"). eauto.
    - intros [Hmessage Husage].
      pose proof (present_prefix data ["choices"; "0"] "message" Hmessage) as Hchoice.
      destruct (proj2 (path_step data ["choices"; "0"; "message"] "content") Hmessage)
        as [text Htext].
      destruct (proj2 (path_step data ["usage"] "prompt_tokens") Husage) as [p Hp].
      destruct (proj2 (path_step data ["usage"] "completion_tokens") Husage) as [c Hc].
      destruct (proj2 (path_step data ["usage"] "total_tokens") Husage) as [tot Ht].
      destruct (proj2 (path_step data ["choices"; "0"] "finish_reason") Hchoice)
        as [reason Hreason].
      simpl app in *. rewrite Htext, Hp, Hc, Ht, Hreason. eauto. }
  destruct (shape AskOpenAI args data) as [e | result] eqn:Hshape; simpl fst.
  - split.
    + rewrite <- Hiff. split; intros [x H]; discriminate.
    + reflexivity.
  - split.
    + rewrite <- Hiff. split; intros _; eauto.
    + assert (Hboth : present data ["choices"; "0"; "message"] = true /\
                      present data ["usage"] = true) by (apply Hiff; eauto).
      destruct Hboth as [H1 H2]. intros [H | H]; congruence.
Qed.

(** X5. The default model stands in for a missing [model] only: any other
    value, an explicit [null] included, is sent as it is and, on success,
    echoed as it is in [metadata.model]. *)
Theorem given_model_is_sent_and_echoed
    (parent : JsVal) (args : Obj) (ctx : Ctx) (t : Trace) (model : JsVal) :
  own_property args "model" = model ->
  model <> JUndefined ->
  truthy (apiKey_of ctx) = true ->
  outbound (snd (askOpenAI parent args ctx t))
    = (outbound t ++
       [ completion_request (apiKey_of ctx) model askOpenAI_system_prompt
           (own_property args "prompt") ])%list /\
  (forall result,
      fst (askOpenAI parent args ctx t) = Returned result ->
      path result ["metadata"; "model"] = inr model).
Proof.
  intros Hmodel Hgiven Hkey.
  assert (Hdefault : default_to (own_property args "model") (JString "gpt-3.5-turbo")
                     = model).
  { rewrite Hmodel. destruct model; try reflexivity. now contradiction Hgiven. }
  split.
  - change (askOpenAI parent args ctx t) with (resolver_of AskOpenAI parent args ctx t).
    rewrite (configured_calls_once AskOpenAI parent args ctx t Hkey).
    simpl request_of. unfold askOpenAI_request. now rewrite Hdefault.
  - intros result Hrun.
    destruct (askOpenAI parent args ctx t) as [o t'] eqn:Heq. simpl in Hrun. subst o.
    destruct (returned_inv AskOpenAI parent args ctx t t' result Heq)
      as (response & data & _ & _ & _ & Hshape).
    unfold shape in Hshape.
    repeat match type of Hshape with
           | context [path ?d ?ks] => destruct (path d ks); [discriminate |]
           end.
    inversion Hshape; subst result. simpl. now rewrite Hdefault.
Qed.

(** X6. With the credential in place, a resolver never settles exactly when
    the upstream never answers or the answer's body never arrives: there is
    no timeout.  It has then made its call and logged nothing. *)
Theorem resolver_waits_for_the_upstream
    (op : Operation) (parent : JsVal) (args : Obj) (ctx : Ctx) (t : Trace) :
  truthy (apiKey_of ctx) = true ->
  (fst (resolver_of op parent args ctx t) = Hung <->
   upstream (request_of op args ctx) = Pending \/
   exists response,
     upstream (request_of op args ctx) = Resolved response /\ json response = Pending) /\
  (fst (resolver_of op parent args ctx t) = Hung ->
   snd (resolver_of op parent args ctx t)
     = (t ++ [Fetched (request_of op args ctx)])%list).
Proof.
  intro Hkey. rewrite (configured op parent args ctx t Hkey). unfold caught.
  destruct (upstream (request_of op args ctx)) as [response | e |].
  - destruct (json response) as [data | e |] eqn:Hjson.
    + destruct (ok response); [destruct (shape op args data) |]; simpl.
      all: split; [split; [discriminate |] | discriminate].
      all: intros [H | (r & H & Hr)]; [discriminate |].
      all: inversion H; subst r; congruence.
    + simpl. split; [split; [discriminate |] | discriminate].
      intros [H | (r & H & Hr)]; [discriminate |].
      inversion H; subst r; congruence.
    + simpl. split; [split; [| reflexivity] | reflexivity].
      intros _. right. eauto.
  - simpl. split; [split; [discriminate |] | discriminate].
    intros [H | (r & H & _)]; discriminate.
  - simpl. split; [split; [| reflexivity] | reflexivity].
    intros _. now left.
Qed.

(** X7. Under a context that carries an environment object, as every
    context the entry point makes does (line 173), whatever that environment
    and the upstream are, a resolver throws one of two errors only.  The
    configuration error comes with no effect at all, not even a diagnostic
    line; the wrapped error comes after the one call and with one diagnostic
    line; and a run that returns, or never settles, has made its one call
    and logged nothing.  (The read of [ctx.env.OPENAI_API_KEY] stands before
    the [try]: a context without [env] is outside [Ctx] and outside this
    statement.) *)
Theorem resolver_effects
    (op : Operation) (parent : JsVal) (args : Obj) (ctx : Ctx) (t : Trace) :
  match fst (resolver_of op parent args ctx t) with
  | Returned _ | Hung =>
      snd (resolver_of op parent args ctx t)
        = (t ++ [Fetched (request_of op args ctx)])%list
  | Thrown e =>
      (e = Error "OpenAI API key is not configured" /\
       snd (resolver_of op parent args ctx t) = t) \/
      (e = Error "Failed to get response from OpenAI" /\
       exists cause,
         snd (resolver_of op parent args ctx t)
           = (t ++ [ Fetched (request_of op args ctx);
                     ConsoleError "Error calling OpenAI:" cause ])%list)
  end.
Proof.
  destruct (truthy (apiKey_of ctx)) eqn:Hkey.
  - rewrite (configured op parent args ctx t Hkey). unfold caught.
    destruct (upstream (request_of op args ctx)) as [response | e |];
      [destruct (json response) as [data | e |];
         [destruct (ok response); [destruct (shape op args data) |] | |] | |];
      simpl; try reflexivity; right; split; eauto.
  - rewrite (unconfigured op parent args ctx t Hkey). simpl. now left.
Qed.

(** X8. The credential reaches the outbound request and nothing else: under
    two contexts with working keys, when the upstream answers the two
    requests alike, the resolver ends alike and logs the same lines. *)
Theorem key_reaches_only_the_request
    (op : Operation) (parent : JsVal) (args : Obj) (ctx1 ctx2 : Ctx) (t : Trace) :
  truthy (apiKey_of ctx1) = true ->
  truthy (apiKey_of ctx2) = true ->
  upstream (request_of op args ctx1) = upstream (request_of op args ctx2) ->
  fst (resolver_of op parent args ctx1 t) = fst (resolver_of op parent args ctx2 t) /\
  logged (snd (resolver_of op parent args ctx1 t))
    = logged (snd (resolver_of op parent args ctx2 t)).
Proof.
  intros Hkey1 Hkey2 Hsame.
  rewrite (configured op parent args ctx1 t Hkey1),
          (configured op parent args ctx2 t Hkey2), Hsame.
  unfold caught.
  destruct (upstream (request_of op args ctx2)) as [response | e |];
    [destruct (json response) as [data | e |];
       [destruct (ok response); [destruct (shape op args data) |] | |] | |];
    simpl; rewrite !logged_app; split; reflexivity.
Qed.

(** The server is made with the CORS policy [cors_options]. *)
Lemma yoga_uses_cors_options :
  yoga = createYoga
           {| schema := makeExecutableSchema typeDefs resolvers;
              graphqlEndpoint := "/*";
              landingPage := false;
              cors := cors_options |}.
Proof. reflexivity. Qed.

End Worker.

(* ===================================================================== *)
(** ** The properties at work on the sample runtime *)
(* ===================================================================== *)

Notation chat' := (chat Sample.Number_toString Sample.JSON_stringify) (only parsing).
Notation askOpenAI' := (askOpenAI Sample.Number_toString Sample.JSON_stringify) (only parsing).
Notation resolver_of' :=
  (resolver_of Sample.Number_toString Sample.JSON_stringify) (only parsing).
Notation request_of' :=
  (request_of Sample.Number_toString Sample.JSON_stringify) (only parsing).
Notation chat_request' :=
  (chat_request Sample.Number_toString Sample.JSON_stringify) (only parsing).
Notation askOpenAI_request' :=
  (askOpenAI_request Sample.Number_toString Sample.JSON_stringify) (only parsing).

Lemma chat_returns_first_choice_text_example :
  chat' Sample.upstream_ok JNull Sample.hello Sample.ctx []
    = (Returned (JObject [ ("text", JString "你好") ]),
       [Fetched (chat_request' Sample.hello Sample.ctx)]).
Proof.
  apply (chat_returns_first_choice_text
           Sample.Number_toString Sample.JSON_stringify Sample.upstream_ok
           JNull Sample.hello Sample.ctx []
           {| status := 200; json := Resolved Sample.completion |}
           Sample.completion (JString "你好"));
    reflexivity.
Defined.

Lemma missing_key_example :
  resolver_of' Sample.upstream_ok Chat JNull Sample.hello Sample.no_key []
    = (Thrown (Error "OpenAI API key is not configured"), []) /\
  outbound (snd (resolver_of' Sample.upstream_ok Chat JNull Sample.hello Sample.no_key []))
    = [].
Proof.
  apply (missing_key_is_a_configuration_error
           Sample.Number_toString Sample.JSON_stringify Sample.upstream_ok
           Chat JNull Sample.hello Sample.no_key []).
  simpl. intros [H | []]. discriminate H.
Defined.

Lemma empty_key_example :
  resolver_of' Sample.upstream_ok AskOpenAI JNull Sample.question Sample.empty_key []
    = (Thrown (Error "OpenAI API key is not configured"), []) /\
  outbound
    (snd (resolver_of' Sample.upstream_ok AskOpenAI JNull Sample.question
            Sample.empty_key []))
    = [].
Proof.
  apply (falsy_key_is_a_configuration_error
           Sample.Number_toString Sample.JSON_stringify Sample.upstream_ok
           AskOpenAI JNull Sample.question Sample.empty_key [] (JString "")).
  - reflexivity.
  - left. reflexivity.
Defined.

Lemma rate_limited_example :
  resolver_of' Sample.upstream_429 AskOpenAI JNull Sample.question Sample.ctx []
    = (Thrown (Error "Failed to get response from OpenAI"),
       [ Fetched (askOpenAI_request' Sample.question Sample.ctx);
         ConsoleError "Error calling OpenAI:" (Error "OpenAI API error: {}") ]).
Proof.
  apply (upstream_failure_is_generic_and_logged_once
           Sample.Number_toString Sample.JSON_stringify Sample.upstream_429
           AskOpenAI JNull Sample.question Sample.ctx []
           {| status := 429; json := Resolved Sample.rate_limited |}
           Sample.rate_limited);
    reflexivity.
Defined.

Lemma usage_is_passed_through_example :
  exists response data usage promptTokens completionTokens totalTokens,
    Sample.upstream_ok (askOpenAI_request' Sample.question Sample.ctx)
      = Resolved response /\
    json response = Resolved data /\
    get data "usage" = inr usage /\
    get usage "prompt_tokens" = inr promptTokens /\
    get usage "completion_tokens" = inr completionTokens /\
    get usage "total_tokens" = inr totalTokens /\
    get Sample.answer "usage"
      = inr (JObject [ ("promptTokens", promptTokens);
                       ("completionTokens", completionTokens);
                       ("totalTokens", totalTokens) ]) /\
    (total_is_sum usage "prompt_tokens" "completion_tokens" "total_tokens" = true ->
     forall usage', get Sample.answer "usage" = inr usage' ->
     total_is_sum usage' "promptTokens" "completionTokens" "totalTokens" = true).
Proof.
  apply (usage_is_passed_through
           Sample.Number_toString Sample.JSON_stringify Sample.upstream_ok
           JNull Sample.question Sample.ctx []
           [Fetched (askOpenAI_request' Sample.question Sample.ctx)] Sample.answer).
  reflexivity.
Defined.

Lemma default_model_example :
  path Sample.answer ["metadata"; "model"] = inr (JString "gpt-3.5-turbo") /\
  path Sample.answer_gpt4 ["metadata"; "model"] = inr (JString "gpt-4").
Proof.
  split.
  - apply (proj1 (metadata_model_is_the_requested_one
                    Sample.Number_toString Sample.JSON_stringify Sample.upstream_ok
                    JNull Sample.question Sample.ctx []
                    [Fetched (askOpenAI_request' Sample.question Sample.ctx)]
                    Sample.answer eq_refl)).
    simpl. intros [H | []]. discriminate H.
  - apply (proj1 (proj2 (proj2 (metadata_model_is_the_requested_one
                    Sample.Number_toString Sample.JSON_stringify Sample.upstream_ok
                    JNull Sample.question_gpt4 Sample.ctx []
                    [Fetched (askOpenAI_request' Sample.question_gpt4 Sample.ctx)]
                    Sample.answer_gpt4 eq_refl)))).
    + reflexivity.
    + discriminate.
Defined.

Lemma preflight_example :
  fetch Sample.Number_toString Sample.JSON_stringify Sample.upstream_ok Sample.createYoga
    Sample.preflight (env Sample.ctx) JUndefined []
    = (Returned preflight_response, []).
Proof.
  apply (preflight_is_answered_directly
           Sample.Number_toString Sample.JSON_stringify Sample.upstream_ok
           Sample.createYoga Sample.preflight (env Sample.ctx) JUndefined []).
  reflexivity.
Defined.

(** C6, as stated, fails: the preflight answer carries four headers, not
    five. *)
Lemma preflight_has_four_headers_not_five :
  exists response,
    fetch Sample.Number_toString Sample.JSON_stringify Sample.upstream_ok
      Sample.createYoga Sample.preflight (env Sample.ctx) JUndefined []
      = (Returned response, []) /\
    res_status response = 204%Z /\
    res_body response = None /\
    List.length (res_headers response) = 4%nat /\
    List.length (res_headers response) <> 5%nat.
Proof.
  eexists. split; [reflexivity |].
  repeat split. discriminate.
Qed.

(** An empty [choices] array ends in the wrapped error. *)
Lemma empty_choices_example :
  resolver_of' Sample.upstream_no_choices AskOpenAI JNull Sample.question Sample.ctx []
    = (Thrown (Error "Failed to get response from OpenAI"),
       [ Fetched (askOpenAI_request' Sample.question Sample.ctx);
         ConsoleError "Error calling OpenAI:"
           (TypeError "Cannot read properties of undefined (reading 'message')") ]).
Proof. reflexivity. Qed.

(** The same server does reach the upstream on any other request. *)
Lemma post_reaches_the_upstream :
  outbound
    (snd (fetch Sample.Number_toString Sample.JSON_stringify Sample.upstream_ok
            Sample.createYoga
            {| req_method := "POST"; req_url := "https://worker.example/graphql";
               req_headers := []; req_body := Some "{ chat }" |}
            (env Sample.ctx) JUndefined []))
    = [chat_request' Sample.hello Sample.ctx].
Proof. reflexivity. Qed.

Lemma chat_sends_one_fixed_request_example :
  outbound (snd (chat' Sample.upstream_ok JNull Sample.hello Sample.ctx []))
    = [ {| url := "https://api.openai.com/v1/chat/completions";
           method := "POST";
           headers := [ ("Content-Type", "application/json");
                        ("Authorization", "Bearer sk-test") ];
           body := Sample.JSON_stringify
                     (completion_payload (JString "gpt-3.5-turbo") chat_system_prompt
                        (JString "hello")) |} ].
Proof.
  apply (chat_sends_one_fixed_request
           Sample.Number_toString Sample.JSON_stringify Sample.upstream_ok
           JNull Sample.hello Sample.ctx []).
  reflexivity.
Defined.

Lemma network_failure_example :
  resolver_of' Sample.upstream_down Chat JNull Sample.hello Sample.ctx []
    = (Thrown (Error "Failed to get response from OpenAI"),
       [ Fetched (chat_request' Sample.hello Sample.ctx);
         ConsoleError "Error calling OpenAI:" (TypeError "fetch failed") ]).
Proof.
  apply (proj1 (failures_are_caught_and_wrapped
                  Sample.Number_toString Sample.JSON_stringify Sample.upstream_down
                  Chat JNull Sample.hello Sample.ctx [] eq_refl)).
  reflexivity.
Defined.

Lemma user_text_is_sent_as_given_example :
  exists request model system_prompt,
    outbound
      (snd (resolver_of' Sample.upstream_ok AskOpenAI JNull Sample.question Sample.ctx []))
      = [request] /\
    url request = "https://api.openai.com/v1/chat/completions" /\
    body request
      = Sample.JSON_stringify
          (JObject
             [ ("model", model);
               ("messages",
                 JArray
                   [ JObject [ ("role", JString "system");
                               ("content", JString system_prompt) ];
                     JObject [ ("role", JString "user");
                               ("content", JString "hello") ] ]);
               ("temperature", JNumber 0.7%float) ]).
Proof.
  apply (user_text_is_sent_as_given
           Sample.Number_toString Sample.JSON_stringify Sample.upstream_ok
           AskOpenAI JNull Sample.question Sample.ctx []).
  reflexivity.
Defined.

(* ===================================================================== *)
(** ** The entry point and the server's configuration *)
(* ===================================================================== *)

(** X9. The handler answers on its own, whatever the server library would
    do, exactly when the method is the string "OPTIONS"; every other request
    goes to the server with the environment as its context. *)
Theorem handler_answers_itself_exactly_for_OPTIONS
    (Number_toString : float -> string) (JSON_stringify : JsVal -> JsVal)
    (upstream : Request -> Settled Response)
    (request : IncomingRequest) (env0 : Obj) (ctx : JsVal) (t : Trace) :
  ((forall server1 server2,
       fetch Number_toString JSON_stringify upstream server1 request env0 ctx t
       = fetch Number_toString JSON_stringify upstream server2 request env0 ctx t)
   <-> req_method request = "OPTIONS") /\
  (req_method request <> "OPTIONS" ->
   forall server,
     fetch Number_toString JSON_stringify upstream server request env0 ctx t
     = yoga Number_toString JSON_stringify upstream server request {| env := env0 |} t).
Proof.
  unfold fetch.
  destruct (String.eqb_spec (req_method request) "OPTIONS") as [Hopt | Hother].
  - split; [split; [intros _; exact Hopt | reflexivity] |].
    intro H. contradiction.
  - split; [split |].
    + intro Hsame.
      specialize (Hsame Sample.yoga_teapot Sample.yoga_gone). discriminate Hsame.
    + intro H. contradiction.
    + reflexivity.
Qed.

(** X10. The preflight answer states the CORS policy the server is made
    with: its origin, its methods and its headers joined by ", ", and its
    lifetime in decimal; no credentials are allowed, and no credentials
    header is sent. *)
Theorem preflight_agrees_with_cors_options :
  res_headers preflight_response
    = [ ("Access-Control-Allow-Origin", origin cors_options);
        ("Access-Control-Allow-Methods", String.concat ", " (methods cors_options));
        ("Access-Control-Allow-Headers",
          String.concat ", " (allowedHeaders cors_options));
        ("Access-Control-Max-Age",
          NilZero.string_of_int (Z.to_int (maxAge cors_options))) ] /\
  credentials cors_options = false /\
  ~ In "Access-Control-Allow-Credentials" (map fst (res_headers preflight_response)) /\
  (forall Number_toString JSON_stringify upstream server,
      yoga Number_toString JSON_stringify upstream server
      = server
          {| schema :=
               makeExecutableSchema typeDefs
                 (resolvers Number_toString JSON_stringify upstream);
             graphqlEndpoint := "/*";
             landingPage := false;
             cors := cors_options |}).
Proof.
  split; [reflexivity |]. split; [reflexivity |]. split; [| reflexivity].
  simpl. intros [H | [H | [H | [H | []]]]]; discriminate H.
Qed.

(* ===================================================================== *)
(** ** The further properties at work on the sample runtime *)
(* ===================================================================== *)

Lemma askOpenAI_returns_the_reshaped_completion_example :
  askOpenAI' Sample.upstream_ok JNull Sample.question Sample.ctx []
    = (Returned Sample.answer,
       [Fetched (askOpenAI_request' Sample.question Sample.ctx)]).
Proof.
  apply (askOpenAI_returns_the_reshaped_completion
           Sample.Number_toString Sample.JSON_stringify Sample.upstream_ok
           JNull Sample.question Sample.ctx []
           {| status := 200; json := Resolved Sample.completion |}
           Sample.completion (JString "你好")
           (JNumber 9%float) (JNumber 12%float) (JNumber 21%float) (JString "stop"));
    reflexivity.
Defined.

Lemma askOpenAI_sends_one_fixed_request_example :
  outbound (snd (askOpenAI' Sample.upstream_ok JNull Sample.question Sample.ctx []))
    = [ {| url := "https://api.openai.com/v1/chat/completions";
           method := "POST";
           headers := [ ("Content-Type", "application/json");
                        ("Authorization", "Bearer sk-test") ];
           body := Sample.JSON_stringify
                     (completion_payload (JString "gpt-3.5-turbo")
                        askOpenAI_system_prompt (JString "hello")) |} ].
Proof.
  apply (askOpenAI_sends_one_fixed_request
           Sample.Number_toString Sample.JSON_stringify Sample.upstream_ok
           JNull Sample.question Sample.ctx []).
  reflexivity.
Defined.

Lemma chat_needs_the_first_message_example :
  fst (chat' Sample.upstream_no_choices JNull Sample.hello Sample.ctx [])
    = Thrown (Error "Failed to get response from OpenAI").
Proof.
  apply (proj2 (chat_needs_the_first_message
                  Sample.Number_toString Sample.JSON_stringify
                  Sample.upstream_no_choices JNull Sample.hello Sample.ctx []
                  {| status := 200; json := Resolved (JObject [ ("choices", JArray []) ]) |}
                  (JObject [ ("choices", JArray []) ])
                  eq_refl eq_refl eq_refl eq_refl)).
  reflexivity.
Defined.

Lemma askOpenAI_needs_the_first_message_and_usage_example :
  exists result,
    fst (askOpenAI' Sample.upstream_ok JNull Sample.question Sample.ctx [])
      = Returned result.
Proof.
  apply (proj1 (askOpenAI_needs_the_first_message_and_usage
                  Sample.Number_toString Sample.JSON_stringify Sample.upstream_ok
                  JNull Sample.question Sample.ctx []
                  {| status := 200; json := Resolved Sample.completion |}
                  Sample.completion eq_refl eq_refl eq_refl eq_refl)).
  split; reflexivity.
Defined.

Lemma null_model_example :
  outbound (snd (askOpenAI' Sample.upstream_ok JNull Sample.null_model Sample.ctx []))
    = [ completion_request Sample.Number_toString Sample.JSON_stringify
          (JString "sk-test") JNull askOpenAI_system_prompt (JString "hello") ].
Proof.
  apply (proj1 (given_model_is_sent_and_echoed
                  Sample.Number_toString Sample.JSON_stringify Sample.upstream_ok
                  JNull Sample.null_model Sample.ctx [] JNull
                  eq_refl ltac:(discriminate) eq_refl)).
Defined.

Lemma silent_upstream_example :
  fst (resolver_of' Sample.upstream_silent Chat JNull Sample.hello Sample.ctx []) = Hung.
Proof.
  apply (proj1 (resolver_waits_for_the_upstream
                  Sample.Number_toString Sample.JSON_stringify Sample.upstream_silent
                  Chat JNull Sample.hello Sample.ctx [] eq_refl)).
  left. reflexivity.
Defined.

(** A body that never arrives hangs the resolver as well. *)
Lemma stalled_body_example :
  resolver_of' Sample.upstream_stalled AskOpenAI JNull Sample.question Sample.ctx []
    = (Hung, [Fetched (askOpenAI_request' Sample.question Sample.ctx)]).
Proof. reflexivity. Qed.

Lemma other_key_example :
  fst (resolver_of' Sample.upstream_429 AskOpenAI JNull Sample.question Sample.ctx [])
    = fst (resolver_of' Sample.upstream_429 AskOpenAI JNull Sample.question
             Sample.other_key []) /\
  logged
    (snd (resolver_of' Sample.upstream_429 AskOpenAI JNull Sample.question Sample.ctx []))
    = logged
        (snd (resolver_of' Sample.upstream_429 AskOpenAI JNull Sample.question
                Sample.other_key [])).
Proof.
  apply (key_reaches_only_the_request
           Sample.Number_toString Sample.JSON_stringify Sample.upstream_429
           AskOpenAI JNull Sample.question Sample.ctx Sample.other_key []);
    reflexivity.
Defined.

(** The two requests of [other_key_example] do differ, in the header that
    carries the key. *)
Lemma other_key_changes_the_request :
  askOpenAI_request' Sample.question Sample.ctx
    <> askOpenAI_request' Sample.question Sample.other_key.
Proof. discriminate. Qed.
